(* ===== verification/_CoqProject ===== *)
-Q . S2P
Prelude.v
Model.v
ActionHook.v
Render.v
Dialog.v
