(* ===== verification/Prelude.v ===== *)
(** * A verification development of [UserDialog]

    The repository's source is one React component,
    [src/src/components/users/UserDialog.tsx]: a modal dialog that creates
    or edits a user.  It renders a form with three inputs (username,
    password, confirmation), two visibility toggles, Cancel and Submit.  It
    hands each submission to a caller-supplied asynchronous handler,
    [handleCreateEdit], through React's [useActionState], and re-renders
    from the handler's answer (submitted data and field errors).

    ** The parts and how they interact

    - The data model ([Model.v]).  [UserType], [UserFormValues],
      [ActionState] and [createInitialState] come from files that are not
      under [src/] and are modelled from the spec's section 3.
      [UserActionState] (line 20), the inputs' [name] attributes, the
      lookups [state?.errors?.f] and [state?.formData?.f], and the form-data
      set the browser builds from the named inputs are modelled from the
      source.
    - The action-state hook ([ActionHook.v]).  [useActionState] (lines
      34-37) is React's.  It is modelled as a queue machine
      [UseActionState] (state, action in flight, queued payloads) with
      [dispatch] and [settle].  The dialog sees it only through the class
      [ActionStateHook] and its laws [ActionStateHookLaws], which
      [UseActionState] implements.  [Phase] is the spec's per-mount machine
      [Idle -> Submitting -> Idle] (section 4.1).
    - The view ([Render.v]).  [UserDialog_view] is the JSX of lines 44-132:
      the props that carry behaviour (open, title, form key, and per input
      its name, [disabled], [type], [defaultValue], [error], [helperText]
      and toggle icon; per button its label, [disabled] and [startIcon]).
      It is a function of the props, the hook's [state] and [isPending],
      and the two [useState] flags.
    - The mounted dialog ([Dialog.v]).  [DialogState] holds what survives
      between renders: props, hook, [showPassword], [showConfirmPassword],
      the keyed form subtree with its identity and its inputs' current
      text, the counter the identities are drawn from, and, per action in
      flight, the form instance that submitted it.  [step] handles the
      events: re-render by the parent, typing, the two toggles (lines
      40-42, 106), submit (the form's [action], line 47), the promise's
      resolution, Cancel (line 117) and the dialog's own dismissal (line
      45).  Each step returns the calls of [onClose] and [handleCreateEdit]
      it makes, and reads its guards off the rendered view: a disabled
      control receives no event, and a form with an empty [required]
      input (lines 55, 69, 94) is not submitted ([checkValidity]).
      [reconcile] mounts a new form instance when the dialog opens or the
      key changes; [reset_form] resets, when an action completes, the
      instance that submitted it, if it is still mounted.  [reachable] is
      the step relation's closure from [init].

    The JavaScript operators the component uses ([?.], [||], [??], [!!],
    and the ternary with truthiness) are defined once, in this file.
    Nullish is [None], and a string is truthy iff it is non-empty.

    ** What the theorems show

    - Safety and invariants of the mounted dialog ([Dialog.v], proved
      against the hook interface, for any lawful hook).  At most one
      handler call is in flight; the form is mounted iff the dialog is
      open, under the current key; one reset target is kept per action
      in flight.  With nothing pending, Submit goes through exactly when
      no input is empty, and then calls the handler once with the
      current state and the inputs' text.  While pending, Submit, Cancel
      and typing are refused.  A resolution settles the state and resets
      the submitting form to the new defaults if it is still mounted; a
      form remounted while pending (another user, or close and reopen)
      keeps its text.  Also proved: Cancel's effect; the dismissal that
      is not locked; the parity of the password toggle; that typing
      changes exactly one input; that closing and reopening remounts the
      inputs but keeps the action-state; the first render of either mode.
    - Bounds over runs ([Dialog.v]).  Along any accepted event sequence the
      handler is called once per Submit.  Submits and Resolves balance up
      to the pending flags at both ends, so they alternate and their counts
      differ by at most one.
    - Refinement ([ActionHook.v]).  Every event sequence the spec's
      two-phase machine accepts runs identically on React's queueing hook.
      Without the lock-out, a second dispatch would queue and start on the
      first's answer.  The hook's type invariant (a queue only behind a
      running action) holds along every run, with in-flight count =
      dispatches - settlements.  Termination: [k] settlements drain [k]
      actions in flight, measured by the in-flight count.
    - Functional behaviour of the view ([Render.v]).  Default values
      equal a reference "first filled" precedence.  Error styling and
      helper text follow the action-state's messages.  Pending disables
      the controls.  The visibility flags change only type and icon.  Also
      proved: the titles and labels of the two modes, and the form key.
    - Roundtrip of the wire format ([Model.v]).  Each field's value is
      read back by its name.
    - Findings, proved as theorems:
      + the identity key remounts only the form, not the hook or the
        flags, so a switch of user keeps the previous submission's data
        and errors;
      + React resets the submitting form when the answer arrives, so an
        answer without [formData] empties the typed inputs that have no
        stored default (spec test 6 expects them kept);
      + a form remounted while a submission is pending is not reset by
        its answer, and shows the defaults of the render that mounted it;
      + submitted data shadows the edited user's data even without
        errors, and an empty submitted value falls back to the stored one;
      + the dismissal gesture closes the dialog while a submission is
        pending;
      + the key "new" is shared by the create form and a user whose id is
        "new" or absent;
      + closing the dialog discards the typed text (MUI unmounts the
        content), which the spec's "open is visibility" does not foresee.

    ** Bounds and fuel

    No definition needs fuel: [step] is a function of one event, and the
    two [run]s recurse structurally on the event list.  The numeric
    quantities are counts (actions in flight, handler calls, submits and
    resolves of a run) and form-instance identities, as [nat].  The
    in-flight count is bounded by 1 in every reachable dialog.  It is the
    measure of the queue-draining theorem.  Identities only grow, so every
    reset target is below the counter and a newly mounted instance is
    never one.

    ** Not modelled

    - The handler's business logic and persistence: opaque.  Its answer is
      the argument of the [Resolve] event.
    - A rejection of the handler's promise: the spec leaves it
      unspecified.
    - Layout props ([margin], [sx], [fullWidth], [variant], [maxWidth],
      [autoFocus], [aria-label]).
    - Focus, transitions and the MUI components' internals, beyond the
      behaviour listed in [Dialog.v]'s header.  Closing unmounts the form
      at once: MUI keeps it through the exit transition, during which no
      event of the model reaches it.
    - The text of an untouched input is not re-synchronised with a new
      [defaultValue] on a re-render that keeps the form: an uncontrolled
      input that is not dirty follows its default in React, so the model
      keeps the mounted text where React may show the new default.
    - The browser's validation message for an empty [required] input: a
      blocked submission is an event that cannot happen.

    ** Plan for later sittings

    - State the confirmation toggle's parity next to the password's.
    - Lift the lock-out's effect to traces: with the Submit guard removed,
      two submits give two handler calls, the second on the first's
      answer.
    - Relate each handler call's previous state to the latest resolution
      along a run (each call sees the answer to the one before). *)

From stdpp Require Import base list strings option.

(** ** JavaScript operators used by the component

    The component reads optional data with [?.], picks defaults with [||]
    and [??], and converts messages to flags with [!!].  These are
    JavaScript's operators, modelled here once so that every component of
    the development reads them the same way:
    - [undefined] and [null] are both [None] (the code never tells them
      apart: [?.] and [??] treat them alike);
    - [a || b] returns [a] when [a] is truthy and [b] otherwise;
    - a string is truthy iff it is not empty; an object is always truthy. *)

Declare Scope js_scope.
Delimit Scope js_scope with js.

(** Truthiness of a JavaScript value, as used by [||], [!!] and [? :]. *)
Class Truthy (A : Type) := truthy : A -> bool.
Global Arguments truthy {_ _} !_ /.

#[export] Instance truthy_string : Truthy string :=
  fun s => negb (bool_decide (s = "")).
#[export] Instance truthy_bool : Truthy bool := fun b => b.
#[export] Instance truthy_option `{Truthy A} : Truthy (option A) :=
  fun o => match o with Some a => truthy a | None => false end.

(** [a || b] *)
Definition js_or `{Truthy A} (a b : A) : A := if truthy a then a else b.
(** [a ?? b]: [b] only when [a] is [null] or [undefined]. *)
Definition js_nullish {A} (a : option A) (b : A) : A :=
  match a with Some x => x | None => b end.
(** [o?.f]: short-circuits to [undefined] on a nullish receiver. *)
Definition js_chain {A B} (o : option A) (f : A -> option B) : option B :=
  match o with Some a => f a | None => None end.
(** [!!a] *)
Definition js_bool `{Truthy A} (a : A) : bool := truthy a.
(** [c ? t : e] *)
Definition js_cond `{Truthy A} {B} (c : A) (t e : B) : B :=
  if truthy c then t else e.

Notation "a `||` b" := (js_or a b) (at level 50, left associativity) : js_scope.
Notation "a ?? b" := (js_nullish a b) (at level 50, left associativity) : js_scope.
Notation "o ?. f" := (js_chain o f) (at level 40, left associativity) : js_scope.
Notation "'!!' a" := (js_bool a) (at level 35) : js_scope.

(** ** Automation shared by the development *)

Create HintDb userdialog discriminated.
Create Rewrite HintDb js.

(** ** Generic lemmas on the JavaScript operators *)

Lemma truthy_string_spec (s : string) : reflect (s <> "") (truthy s).
Proof. unfold truthy, truthy_string. case_bool_decide; constructor; auto. Qed.

Lemma truthy_string_false (s : string) : truthy s = false <-> s = "".
Proof. unfold truthy, truthy_string. case_bool_decide; naive_solver. Qed.

Lemma truthy_empty : truthy "" = false.
Proof. reflexivity. Qed.

Lemma truthy_None `{Truthy A} : truthy (@None A) = false.
Proof. reflexivity. Qed.

Lemma truthy_Some `{Truthy A} (a : A) : truthy (Some a) = truthy a.
Proof. reflexivity. Qed.

Lemma js_or_truthy `{Truthy A} (a b : A) : truthy a = true -> js_or a b = a.
Proof. unfold js_or. by intros ->. Qed.

Lemma js_or_falsy `{Truthy A} (a b : A) : truthy a = false -> js_or a b = b.
Proof. unfold js_or. by intros ->. Qed.

Lemma js_or_None `{Truthy A} (b : option A) : js_or None b = b.
Proof. reflexivity. Qed.

Lemma js_or_assoc `{Truthy A} (a b c : A) :
  js_or (js_or a b) c = js_or a (js_or b c).
Proof. unfold js_or. by destruct (truthy a) eqn:E; rewrite ?E. Qed.

(** [a || b] is truthy iff one of them is. *)
Lemma truthy_js_or `{Truthy A} (a b : A) :
  truthy (js_or a b) = truthy a || truthy b.
Proof. unfold js_or. by destruct (truthy a) eqn:E; rewrite ?E. Qed.

Lemma js_nullish_Some {A} (a b : A) : js_nullish (Some a) b = a.
Proof. reflexivity. Qed.

Lemma js_nullish_None {A} (b : A) : js_nullish None b = b.
Proof. reflexivity. Qed.

Lemma js_chain_None {A B} (f : A -> option B) : js_chain None f = None.
Proof. reflexivity. Qed.

Lemma js_chain_Some {A B} (a : A) (f : A -> option B) : js_chain (Some a) f = f a.
Proof. reflexivity. Qed.

#[export] Hint Rewrite @truthy_None @truthy_Some @js_or_None @js_nullish_Some
  @js_nullish_None @js_chain_None @js_chain_Some : js.
#[export] Hint Resolve js_or_truthy js_or_falsy : userdialog.

(** Unfold the JavaScript operators and split on the truthiness tests. *)
Ltac js_simpl :=
  repeat (autorewrite with js in *; cbn [js_or js_bool js_cond] in *).

Ltac js_cases :=
  repeat match goal with
  | |- context [truthy ?s] =>
      lazymatch type of s with
      | string => destruct (truthy_string_spec s)
      end
  | |- context [match ?o with Some _ => _ | None => _ end] =>
      lazymatch type of o with option _ => destruct o end
  end.
