(* ===== verification/Model.v ===== *)
(** * Model: the data the dialog reads and writes

    The record types the component imports ([UserType] from [./type],
    [UserFormValues] from [../../models], [ActionState] from
    [../../interfaces], [createInitialState] from [../../helpers]) are not
    among the repository's files under [src/]; they are modelled from the
    spec's data model (section 3).  [UserActionState] (line 20), the field
    names of the three inputs, the lookups [state?.errors?.f] and
    [state?.formData?.f], and the form-data set the browser builds from the
    named inputs are modelled from the source. *)

From stdpp Require Import base list strings option.
From S2P Require Import Prelude.
Local Open Scope js_scope.

(** ** Records *)

(** [UserType]: [{ id?, username, password }] (spec, section 3). *)
Module UserType.
Record t := mk { id : option string; username : string; password : string }.
End UserType.

(** [UserFormValues]: the three submitted strings. *)
Module UserFormValues.
Record t := mk { username : string; password : string; confirmPassword : string }.
End UserFormValues.

(** [errors]: a partial record from field names to messages. *)
Module FieldErrors.
Record t := mk { username : option string; password : option string;
                   confirmPassword : option string }.
End FieldErrors.

(** [ActionState<T>] at [T = UserFormValues]: [{ formData?, errors? }]. *)
Module ActionState.
Record t := mk { formData : option UserFormValues.t; errors : option FieldErrors.t }.
End ActionState.

(** [export type UserActionState = ActionState<UserFormValues>] *)
Definition UserActionState := ActionState.t.

(** [createInitialState<UserFormValues>()]: no data, no errors. *)
Definition createInitialState : UserActionState := ActionState.mk None None.

(** An object is truthy in JavaScript, whatever its fields. *)
#[export] Instance truthy_UserType : Truthy UserType.t := fun _ => true.

#[export] Instance UserType_eq_dec : EqDecision UserType.t.
Proof. solve_decision. Defined.
#[export] Instance UserFormValues_eq_dec : EqDecision UserFormValues.t.
Proof. solve_decision. Defined.
#[export] Instance FieldErrors_eq_dec : EqDecision FieldErrors.t.
Proof. solve_decision. Defined.
#[export] Instance ActionState_eq_dec : EqDecision ActionState.t.
Proof. solve_decision. Defined.

(** ** The three named inputs *)

Inductive Field := FUsername | FPassword | FConfirmPassword.

#[export] Instance Field_eq_dec : EqDecision Field.
Proof. solve_decision. Defined.

(** The [name] attribute of each [TextField] (lines 50, 65, 92). *)
Definition field_name (f : Field) : string :=
  match f with
  | FUsername => "username"
  | FPassword => "password"
  | FConfirmPassword => "confirmPassword"
  end.

(** The inputs in document order. *)
Definition fields : list Field := [FUsername; FPassword; FConfirmPassword].

Definition form_value (v : UserFormValues.t) (f : Field) : string :=
  match f with
  | FUsername => UserFormValues.username v
  | FPassword => UserFormValues.password v
  | FConfirmPassword => UserFormValues.confirmPassword v
  end.

Definition set_form_value (v : UserFormValues.t) (f : Field) (s : string)
  : UserFormValues.t :=
  match f with
  | FUsername => UserFormValues.mk s (UserFormValues.password v)
                   (UserFormValues.confirmPassword v)
  | FPassword => UserFormValues.mk (UserFormValues.username v) s
                   (UserFormValues.confirmPassword v)
  | FConfirmPassword => UserFormValues.mk (UserFormValues.username v)
                   (UserFormValues.password v) s
  end.

Definition field_error (e : FieldErrors.t) (f : Field) : option string :=
  match f with
  | FUsername => FieldErrors.username e
  | FPassword => FieldErrors.password e
  | FConfirmPassword => FieldErrors.confirmPassword e
  end.

(** [state?.errors?.<f>] (lines 59-60, 74-75, 100-101). *)
Definition state_error (state : option UserActionState) (f : Field) : option string :=
  state ?.ActionState.errors ?.(fun e => field_error e f).

(** [state?.formData?.<f>] (lines 58, 73, 99). *)
Definition state_form_value (state : option UserActionState) (f : Field)
  : option string :=
  state ?.ActionState.formData ?.(fun v => Some (form_value v f)).

(** ** The form-data set

    Submitting the form hands the handler a [FormData]: the entries
    [(name, value)] of the form's named, enabled controls in document
    order.  [FormData.get(name)] returns the first entry's value or
    [null]. *)

Definition FormData := list (string * string).

Fixpoint FormData_get (fd : FormData) (name : string) : option string :=
  match fd with
  | [] => None
  | (n, v) :: rest => if bool_decide (n = name) then Some v else FormData_get rest name
  end.

(** The entries of the three inputs of lines 49-114. *)
Definition form_data_of (v : UserFormValues.t) : FormData :=
  map (fun f => (field_name f, form_value v f)) fields.

(** How a handler reads the wire format back (spec, section 6). *)
Definition form_values_of_form_data (fd : FormData) : option UserFormValues.t :=
  u ← FormData_get fd "username";
  p ← FormData_get fd "password";
  c ← FormData_get fd "confirmPassword";
  Some (UserFormValues.mk u p c).

(** ** Lemmas *)

Lemma field_name_inj (f g : Field) : field_name f = field_name g -> f = g.
Proof. by destruct f, g. Qed.

Lemma form_value_set_eq (v : UserFormValues.t) (f : Field) (s : string) :
  form_value (set_form_value v f s) f = s.
Proof. by destruct f. Qed.

Lemma form_value_set_ne (v : UserFormValues.t) (f g : Field) (s : string) :
  f <> g -> form_value (set_form_value v f s) g = form_value v g.
Proof. by destruct f, g. Qed.

Lemma FormData_get_app (fd1 fd2 : FormData) (name : string) :
  FormData_get (fd1 ++ fd2) name =
  match FormData_get fd1 name with Some v => Some v | None => FormData_get fd2 name end.
Proof.
  induction fd1 as [|[n v] fd1 IH]; [done|]. cbn. by case_bool_decide.
Qed.

Lemma form_values_eta (v : UserFormValues.t) :
  UserFormValues.mk (form_value v FUsername) (form_value v FPassword)
    (form_value v FConfirmPassword) = v.
Proof. by destruct v. Qed.

#[export] Hint Rewrite form_value_set_eq : js.
#[export] Hint Resolve field_name_inj : userdialog.

(** C21: the wire format.  Reading the submitted form data back by a
    field's name gives exactly the value of that field's input: the three
    names are distinct, so no input shadows another. *)
Theorem form_data_roundtrip (v : UserFormValues.t) (f : Field) :
  FormData_get (form_data_of v) (field_name f) = Some (form_value v f).
Proof. by destruct f. Qed.

(** C22: the handler's decoding of the three names inverts the encoding:
    reading the submitted form data back gives the three inputs' text. *)
Theorem form_values_roundtrip (v : UserFormValues.t) :
  form_values_of_form_data (form_data_of v) = Some v.
Proof. by destruct v. Qed.
