(* ===== verification/ActionHook.v ===== *)
(** * ActionHook: [useActionState(handleCreateEdit, initialState)]

    Lines 34-37 of [UserDialog.tsx] obtain [[state, submitAction,
    isPending]] from React's [useActionState].  The hook keeps the last
    resolved state, the action in flight and the actions dispatched while
    one is in flight; it calls the action function with the previous state
    and the payload when an action starts, and stores the value its promise
    resolves to when it settles.  This file holds
    - the interface [ActionStateHook] the dialog relies on (a class of
      operations and its laws class [ActionStateHookLaws]);
    - [UseActionState]: the hook as a queue machine, and its instance of
      the interface;
    - [Phase]: the spec's per-mount machine [Idle -> Submitting -> Idle]
      (section 4.1) and the refinement theorem relating the two. *)

From stdpp Require Import base list option.
From S2P Require Import Prelude.

(** ** The interface *)

(** What the component uses of the hook: its state, its pending flag, the
    number of actions not yet settled, and the two transitions.  A
    transition returns the calls of the action function it starts, each as
    (previous state, payload). *)
Class ActionStateHook (H St Pl : Type) := {
  ash_init : St -> H;
  ash_state : H -> St;
  ash_pending : H -> bool;
  ash_in_flight : H -> nat;
  ash_dispatch : Pl -> H -> H * list (St * Pl);
  ash_settle : St -> H -> option (H * list (St * Pl));
  ash_wf : H -> Prop
}.

(** The laws hold of well-formed hooks, which every operation keeps
    well-formed. *)
Class ActionStateHookLaws (H St Pl : Type) `{!ActionStateHook H St Pl} := {
  ash_init_wf s : ash_wf (ash_init s);
  ash_dispatch_wf h p : ash_wf (ash_dispatch p h).1;
  ash_settle_wf h r h' cs : ash_settle r h = Some (h', cs) -> ash_wf h';
  ash_init_state s : ash_state (ash_init s) = s;
  ash_init_in_flight s : ash_in_flight (ash_init s) = 0;
  ash_pending_in_flight h : ash_pending h = bool_decide (0 < ash_in_flight h);
  ash_dispatch_idle h p :
    ash_in_flight h = 0 ->
    ash_dispatch p h = ((ash_dispatch p h).1, [(ash_state h, p)]);
  ash_dispatch_state h p : ash_state (ash_dispatch p h).1 = ash_state h;
  ash_dispatch_in_flight h p :
    ash_wf h -> ash_in_flight (ash_dispatch p h).1 = S (ash_in_flight h);
  ash_settle_None h r : ash_settle r h = None <-> ash_in_flight h = 0;
  ash_settle_Some h r h' cs :
    ash_settle r h = Some (h', cs) ->
    ash_state h' = r /\ S (ash_in_flight h') = ash_in_flight h;
  ash_settle_last h r h' cs :
    ash_in_flight h = 1 -> ash_settle r h = Some (h', cs) -> cs = []
}.

(** ** React's [useActionState] *)

Module UseActionState.
Section Hook.
Context {St Pl : Type}.

(** The hook's memory: the last resolved state, the payload of the
    action in flight, and the payloads queued behind it. *)
Record Hook := mk_hook {
  hk_state : St;
  hk_running : option Pl;
  hk_queue : list Pl
}.

Definition useActionState (initialState : St) : Hook :=
  mk_hook initialState None [].

(** [isPending]: an action has been dispatched and not yet settled. *)
Definition isPending (h : Hook) : bool :=
  match hk_running h with Some _ => true | None => false end.

Definition in_flight (h : Hook) : nat :=
  match hk_running h with Some _ => S (length (hk_queue h)) | None => 0 end.

(** [submitAction(payload)]: start the action at once when nothing is in
    flight, passing it the current state; otherwise queue it. *)
Definition dispatch (p : Pl) (h : Hook) : Hook * list (St * Pl) :=
  match hk_running h with
  | None => (mk_hook (hk_state h) (Some p) (hk_queue h), [(hk_state h, p)])
  | Some _ => (mk_hook (hk_state h) (hk_running h) (hk_queue h ++ [p]), [])
  end.

(** The running action's promise resolves to [r]: [r] becomes the state,
    and the next queued action starts with [r] as its previous state.
    With nothing in flight there is no promise to resolve. *)
Definition settle (r : St) (h : Hook) : option (Hook * list (St * Pl)) :=
  match hk_running h with
  | None => None
  | Some _ =>
      match hk_queue h with
      | [] => Some (mk_hook r None [], [])
      | p :: q => Some (mk_hook r (Some p) q, [(r, p)])
      end
  end.

(** A queue is only ever non-empty behind a running action. *)
Definition wf (h : Hook) : Prop := hk_running h = None -> hk_queue h = [].

Lemma in_flight_0 (h : Hook) : wf h -> in_flight h = 0 -> hk_running h = None.
Proof. unfold in_flight. by destruct (hk_running h). Qed.

Lemma dispatch_wf (p : Pl) (h : Hook) : wf (dispatch p h).1.
Proof. unfold wf, dispatch. by destruct (hk_running h). Qed.

Lemma settle_wf (r : St) (h h' : Hook) cs : settle r h = Some (h', cs) -> wf h'.
Proof.
  unfold wf, settle. destruct (hk_running h); [|done].
  destruct (hk_queue h); intros; simplify_eq/=; done.
Qed.
End Hook.
End UseActionState.

Import UseActionState.

Ltac hook_cases h :=
  unfold wf, in_flight, isPending, dispatch, settle in *;
  destruct (hk_running h), (hk_queue h); cbn in *.

#[export] Instance react_action_state {St Pl : Type}
  : ActionStateHook (@Hook St Pl) St Pl := {|
  ash_init := useActionState;
  ash_state := hk_state;
  ash_pending := isPending;
  ash_in_flight := in_flight;
  ash_dispatch := dispatch;
  ash_settle := settle;
  ash_wf := wf
|}.

#[export] Instance react_action_state_laws {St Pl : Type}
  : ActionStateHookLaws (@Hook St Pl) St Pl.
Proof.
  split; cbn.
  - done.
  - intros h p. apply dispatch_wf.
  - intros h r h' cs. apply settle_wf.
  - done.
  - done.
  - intros h. hook_cases h; by rewrite ?bool_decide_true by lia.
  - intros h p. hook_cases h; done.
  - intros h p. hook_cases h; done.
  - intros h p Hwf. hook_cases h; rewrite ?length_app; cbn; try specialize (Hwf eq_refl); simplify_eq/=; lia.
  - intros h r. hook_cases h; split; done.
  - intros h r h' cs. hook_cases h; intros; simplify_eq/=; auto.
  - intros h r h' cs. hook_cases h; intros; simplify_eq/=; auto.
Qed.

(** ** The spec's machine: [Idle -> Submitting -> Idle]

    Section 4.1 of the spec describes one mounted dialog as a two-phase
    machine: [Idle] with the current action-state, or [Submitting] one
    payload; a second submit cannot be issued while submitting, and
    nothing settles while idle. *)

Section Spec.
Context {St Pl : Type}.

Inductive Phase := Idle (s : St) | Submitting (s : St) (p : Pl).

Inductive HookEvent := Dispatch (p : Pl) | Settle (r : St).

Definition phase_step (e : HookEvent) (ph : Phase) : option (Phase * list (St * Pl)) :=
  match e, ph with
  | Dispatch p, Idle s => Some (Submitting s p, [(s, p)])
  | Settle r, Submitting _ _ => Some (Idle r, [])
  | _, _ => None
  end.

Definition hook_step (e : HookEvent) (h : @Hook St Pl) : option (Hook * list (St * Pl)) :=
  match e with
  | Dispatch p => Some (dispatch p h)
  | Settle r => settle r h
  end.

(** Running a sequence of events, collecting the calls they start. *)
Fixpoint run {X : Type} (step : HookEvent -> X -> option (X * list (St * Pl)))
    (es : list HookEvent) (x : X) : option (X * list (St * Pl)) :=
  match es with
  | [] => Some (x, [])
  | e :: es' =>
      '(x', c1) ← step e x;
      '(x'', c2) ← run step es' x';
      Some (x'', c1 ++ c2)
  end.

(** The abstraction of a hook with an empty queue. *)
Definition abs (h : @Hook St Pl) : Phase :=
  match hk_running h with
  | None => Idle (hk_state h)
  | Some p => Submitting (hk_state h) p
  end.

Lemma hook_step_simulates (e : HookEvent) (h : Hook) ph' cs :
  hk_queue h = [] -> phase_step e (abs h) = Some (ph', cs) ->
  exists h', hook_step e h = Some (h', cs) /\ abs h' = ph' /\ hk_queue h' = [].
Proof.
  intros Hq. unfold abs, hook_step. destruct e; hook_cases h; intros;
    simplify_eq/=; eauto.
Qed.

(** C7: refinement.  Every run of events the spec's two-phase machine
    accepts is a run of React's hook started from the corresponding
    state, with the same calls of the action function, ending in the
    corresponding state with an empty queue. *)
Theorem hook_refines_phase (es : list HookEvent) (h : Hook) ph' cs :
  hk_queue h = [] ->
  run phase_step es (abs h) = Some (ph', cs) ->
  exists h', run hook_step es h = Some (h', cs) /\ abs h' = ph' /\ hk_queue h' = [].
Proof.
  revert h ph' cs. induction es as [|e es IH]; intros h ph' cs Hq Hrun; cbn in *.
  - simplify_eq. eauto.
  - destruct (phase_step e (abs h)) as [[ph1 c1]|] eqn:E1; [|discriminate]. cbn in Hrun.
    destruct (run phase_step es ph1) as [[ph2 c2]|] eqn:E2; [|discriminate].
    simplify_eq/=.
    destruct (hook_step_simulates e h ph1 c1 Hq E1) as (h1 & -> & <- & Hq1). cbn.
    destruct (IH h1 ph' c2 Hq1 E2) as (h2 & -> & <- & Hq2). cbn. eauto.
Qed.
End Spec.

Arguments Phase : clear implicits.

(** A submit and its settlement, accepted by the spec's machine, run the
    same way on React's hook. *)
Lemma hook_refines_phase_witness :
  hk_queue (useActionState (St:=nat) (Pl:=nat) 0) = [] /\
  run phase_step [Dispatch 7; Settle 3] (abs (useActionState (St:=nat) (Pl:=nat) 0)) =
    Some (Idle 3, [(0, 7)]) /\
  exists h', run hook_step [Dispatch 7; Settle 3] (useActionState 0) = Some (h', [(0, 7)]) /\
    abs h' = Idle 3.
Proof.
  assert (Hq : hk_queue (useActionState (St:=nat) (Pl:=nat) 0) = []) by reflexivity.
  assert (Hr : run phase_step [Dispatch 7; Settle 3] (abs (useActionState (St:=nat) (Pl:=nat) 0)) =
    Some (Idle 3, [(0, 7)])) by reflexivity.
  split_and!; [exact Hq|exact Hr|].
  destruct (hook_refines_phase _ _ _ _ Hq Hr) as (h' & Hrun & Habs & _). eauto.
Defined.

(** C23: ordering of queued actions.  A payload dispatched while another
    action is in flight starts no call; when the running action settles
    with [r], the queued one starts with [r] as its previous state and the
    hook stays pending.  This is why the dialog's lock-out matters: without
    it a second submit would run after the first, on the first's answer. *)
Theorem queued_dispatch_runs_after_settle {St Pl : Type} (h : @Hook St Pl) p1 p2 r :
  hk_running h = None -> hk_queue h = [] ->
  exists h1 h2 h3,
    dispatch p1 h = (h1, [(hk_state h, p1)]) /\
    dispatch p2 h1 = (h2, []) /\ isPending h2 = true /\
    settle r h2 = Some (h3, [(r, p2)]) /\ hk_state h3 = r /\ isPending h3 = true.
Proof.
  intros Hr Hq. unfold dispatch, settle, isPending. rewrite Hr, Hq. cbn.
  do 3 eexists. by split_and!.
Qed.

Lemma queued_dispatch_runs_after_settle_witness :
  hk_running (useActionState (St:=nat) (Pl:=nat) 0) = None /\
  hk_queue (useActionState (St:=nat) (Pl:=nat) 0) = [] /\
  exists h1 h2 h3,
    dispatch 1 (useActionState 0) = (h1, [(0, 1)]) /\ dispatch 2 h1 = (h2, []) /\
    settle 5 h2 = Some (h3, [(5, 2)]).
Proof.
  assert (Hr : hk_running (useActionState (St:=nat) (Pl:=nat) 0) = None) by reflexivity.
  assert (Hq : hk_queue (useActionState (St:=nat) (Pl:=nat) 0) = []) by reflexivity.
  split_and!; [exact Hr|exact Hq|].
  destruct (queued_dispatch_runs_after_settle (useActionState 0) 1 2 5 Hr Hq)
    as (h1 & h2 & h3 & H1 & H2 & _ & H3 & _). eauto 6.
Defined.

(** ** Counting and draining *)

Section Counting.
Context {St Pl : Type}.

Definition is_dispatch (e : @HookEvent St Pl) : nat :=
  match e with Dispatch _ => 1 | Settle _ => 0 end.
Definition is_settle (e : @HookEvent St Pl) : nat :=
  match e with Dispatch _ => 0 | Settle _ => 1 end.

(** One accepted event keeps the hook well formed and moves the count of
    actions in flight by one, up for a dispatch and down for a
    settlement. *)
Lemma hook_step_count (e : HookEvent) (h h' : @Hook St Pl) cs :
  wf h -> hook_step e h = Some (h', cs) ->
  wf h' /\ in_flight h' + is_settle e = in_flight h + is_dispatch e.
Proof.
  intros Hwf. destruct e as [p|r]; cbn; intros Hs.
  - injection Hs as Hs. pose proof (dispatch_wf p h) as Hd. rewrite Hs in Hd.
    split; [done|]. hook_cases h; simplify_eq/=; rewrite ?length_app; cbn;
      try specialize (Hwf eq_refl); simplify_eq/=; lia.
  - split; [eauto using settle_wf|]. hook_cases h; simplify_eq/=; lia.
Qed.

Lemma hook_run_count (es : list HookEvent) (h h' : @Hook St Pl) cs :
  wf h -> run hook_step es h = Some (h', cs) ->
  wf h' /\ in_flight h' + sum_list (map is_settle es) = in_flight h + sum_list (map is_dispatch es).
Proof.
  revert h cs. induction es as [|e es IH]; intros h cs Hwf Hrun; cbn in Hrun.
  - simplify_eq/=. split; [done|lia].
  - destruct (hook_step e h) as [[h1 c1]|] eqn:Hs; [|discriminate]. cbn in Hrun.
    destruct (run hook_step es h1) as [[h2 c2]|] eqn:Hr; [|discriminate]. simplify_eq/=.
    destruct (hook_step_count e h h1 c1 Hwf Hs) as [Hw1 Hc1].
    destruct (IH h1 c2 Hw1 Hr) as [Hw2 Hc2]. split; [done|lia].
Qed.

(** One settlement of a hook with actions in flight: it is accepted, the
    count drops by one, and it starts the next queued action if any. *)
Lemma settle_one (h : @Hook St Pl) r :
  wf h -> in_flight h <> 0 ->
  exists h1 c1, settle r h = Some (h1, c1) /\ wf h1 /\ S (in_flight h1) = in_flight h /\
    length c1 + pred (in_flight h1) = pred (in_flight h).
Proof.
  intros Hwf Hn. pose proof (settle_wf r h) as Hw.
  hook_cases h; [| |lia|lia]; do 2 eexists; split_and!; eauto; cbn; lia.
Qed.
End Counting.

(** C24: termination of the queue.  From a well-formed hook with [k]
    actions in flight, [k] settlements are accepted one after the other,
    start each queued action once, and leave the hook idle, after which
    no further settlement is accepted. *)
Theorem settle_drains {St Pl : Type} (h : @Hook St Pl) (rs : list St) :
  wf h -> length rs = in_flight h ->
  exists h' cs, run hook_step (map (@Settle St Pl) rs) h = Some (h', cs) /\
    isPending h' = false /\ length cs = pred (in_flight h) /\
    forall r, settle r h' = None.
Proof.
  revert h. induction rs as [|r rs IH]; intros h Hwf Hlen; cbn.
  - exists h, []. unfold isPending, settle, in_flight in *.
    destruct (hk_running h); cbn in *; [lia|]. by split_and!.
  - destruct (settle_one h r Hwf) as (h1 & c1 & Hs & Hw1 & Hn & Hc); [cbn in Hlen; lia|].
    rewrite Hs. cbn. destruct (IH h1 Hw1) as (h' & cs & -> & Hp & Hl & Hnone); [cbn in Hlen; lia|].
    exists h', (c1 ++ cs). cbn. split_and!; [done|done| |done].
    rewrite length_app. lia.
Qed.

(** C25: the hook's type invariant and its count.  Every run of React's
    hook from [useActionState s] ends in a well-formed hook (a queue only
    behind a running action), pending exactly when some action is in
    flight, with as many actions in flight as dispatches minus
    settlements. *)
Theorem hook_runs_wf {St Pl : Type} (s : St) (es : list (@HookEvent St Pl)) h cs :
  run hook_step es (useActionState s) = Some (h, cs) ->
  wf h /\ (isPending h = true <-> in_flight h <> 0) /\
  in_flight h + sum_list (map is_settle es) = sum_list (map is_dispatch es).
Proof.
  intros Hrun.
  destruct (hook_run_count es (useActionState s) h cs (fun _ => eq_refl) Hrun) as [Hw Hc].
  split_and!; [done| |exact Hc].
  unfold isPending, in_flight. destruct (hk_running h); naive_solver.
Qed.

Lemma settle_drains_witness :
  wf (fst (dispatch (St:=nat) 2 (fst (dispatch 1 (useActionState 0))))) /\
  exists h' cs, run hook_step [Settle 5; Settle 6]
                  (fst (dispatch (St:=nat) 2 (fst (dispatch 1 (useActionState 0))))) =
                Some (h', cs) /\ isPending h' = false /\ cs = [(5, 2)].
Proof.
  assert (Hw : wf (fst (dispatch (St:=nat) 2 (fst (dispatch 1 (useActionState 0)))))).
  { apply dispatch_wf. }
  split; [exact Hw|].
  destruct (settle_drains _ [5; 6] Hw eq_refl) as (h' & cs & Hr & Hp & _).
  exists h', cs. split_and!; [exact Hr|exact Hp|].
  cbn in Hr. by injection Hr as _ <-.
Defined.

Lemma hook_runs_wf_witness :
  run hook_step [Dispatch 1; Dispatch 2; Settle 5] (useActionState (St:=nat) (Pl:=nat) 0) =
    Some (mk_hook 5 (Some 2) [], [(0, 1); (5, 2)]) /\
  in_flight (mk_hook (St:=nat) (Pl:=nat) 5 (Some 2) []) = 1.
Proof.
  assert (Hr : run hook_step [Dispatch 1; Dispatch 2; Settle 5]
    (useActionState (St:=nat) (Pl:=nat) 0) = Some (mk_hook 5 (Some 2) [], [(0, 1); (5, 2)]))
    by reflexivity.
  split; [exact Hr|]. destruct (hook_runs_wf 0 _ _ _ Hr) as (_ & _ & Hc). cbn in Hc |- *. lia.
Defined.
