(* ===== verification/Render.v ===== *)
(** * Render: the JSX of [UserDialog] (lines 44-132)

    [UserDialog_view] is the element tree the component returns, as a
    record of the props that carry behaviour: the dialog's [open], the
    title, the [key] of the form [Box], for each [TextField] its name,
    label, [required], [disabled], [type], [defaultValue], [error],
    [helperText] and the icon of its visibility toggle, and for each
    [Button] its label, [type], [disabled] and [startIcon].  Layout props
    ([margin], [fullWidth], [variant], [sx], [maxWidth]) are left out.  It
    is a function of the props, of the hook's [state] and [isPending], and
    of the two [useState] flags. *)

From stdpp Require Import base list strings option.
From S2P Require Import Prelude Model.
Local Open Scope js_scope.

Module Props.
  (** [open] and [user]; [onClose] and [handleCreateEdit] are the
      callbacks the dialog machine ([Dialog.v]) reports as effects. *)
Record t := mk { open : bool; user : option UserType.t }.
End Props.

Inductive Icon := Visibility | VisibilityOff | CircularProgress.

#[export] Instance Icon_eq_dec : EqDecision Icon.
Proof. solve_decision. Defined.

Module TextFieldView.
Record t := mk {
    name : string;
    label : string;
    required : bool;
    disabled : bool;
    type : option string;
    defaultValue : option string;
    error : bool;
    helperText : option string;
    toggleIcon : option Icon
  }.
End TextFieldView.

Module ButtonView.
Record t := mk {
    label : string;
    type : string;
    disabled : bool;
    startIcon : option Icon
  }.
End ButtonView.

Module View.
Record t := mk {
    open : bool;
    title : string;
    formKey : string;
    username : TextFieldView.t;
    password : TextFieldView.t;
    confirmPassword : TextFieldView.t;
    cancel : ButtonView.t;
    submit : ButtonView.t
  }.
End View.

(** [user?.username], [user?.password] *)
Definition user_username (user : option UserType.t) : option string :=
  user ?.(fun u => Some (UserType.username u)).
Definition user_password (user : option UserType.t) : option string :=
  user ?.(fun u => Some (UserType.password u)).

(** [key={user?.id ?? 'new'}] (line 47) *)
Definition form_key (user : option UserType.t) : string :=
  (user ?.UserType.id) ?? "new".

Definition UserDialog_view (props : Props.t) (state : option UserActionState)
    (isPending showPassword showConfirmPassword : bool) : View.t :=
  let user := Props.user props in
  View.mk
    (Props.open props)
    (js_cond user "Editar usuario" "Nuevo usuario")
    (form_key user)
    (TextFieldView.mk "username" "Nombre del usuario" true isPending None
       (state_form_value state FUsername `||` user_username user `||` Some "")
       (!! state_error state FUsername)
       (state_error state FUsername)
       None)
    (TextFieldView.mk "password" "Contraseña" true isPending
       (Some (js_cond showPassword "text" "password"))
       (state_form_value state FPassword `||` user_password user `||` Some "")
       (!! state_error state FPassword)
       (state_error state FPassword)
       (Some (js_cond showPassword VisibilityOff Visibility)))
    (TextFieldView.mk "confirmPassword" "Repetir password" true isPending
       (Some (js_cond showConfirmPassword "text" "password"))
       (state_form_value state FConfirmPassword)
       (!! state_error state FConfirmPassword)
       (state_error state FConfirmPassword)
       (Some (js_cond showConfirmPassword VisibilityOff Visibility)))
    (ButtonView.mk "Cancelar" "button" isPending None)
    (ButtonView.mk (js_cond user "Actualizar" "Crear") "submit" isPending
       (if isPending then Some CircularProgress else None)).

(** The [TextField] of a field. *)
Definition field_view (v : View.t) (f : Field) : TextFieldView.t :=
  match f with
  | FUsername => View.username v
  | FPassword => View.password v
  | FConfirmPassword => View.confirmPassword v
  end.

(** ** Reference definitions

    The spec's precedence for a pre-filled value ("the prior attempt's
    value, else the existing user's, else empty"), read with JavaScript's
    notion of a present value: the first candidate that is a non-empty
    string. *)
Fixpoint first_filled (xs : list (option string)) : string :=
  match xs with
  | [] => ""
  | Some s :: xs' => if bool_decide (s = "") then first_filled xs' else s
  | None :: xs' => first_filled xs'
  end.

(** ** Lemmas *)

Lemma js_or_chain_first_filled (xs : list (option string)) :
  foldr js_or (Some "") xs = Some (first_filled xs).
Proof.
  induction xs as [|[s|] xs IH]; [done| |done]. cbn.
  case_bool_decide as Hs; [by subst|].
  apply js_or_truthy. cbn. by destruct (truthy_string_spec s).
Qed.

(** [a || b || ''] is the first filled of [a] and [b]. *)
Lemma js_or_default (a b : option string) :
  js_or (js_or a b) (Some "") = Some (first_filled [a; b]).
Proof. rewrite js_or_assoc. apply (js_or_chain_first_filled [a; b]). Qed.

Lemma js_bool_option_string (o : option string) :
  js_bool o = true <-> exists m, o = Some m /\ m <> "".
Proof.
  destruct o as [m|]; cbn; [destruct (truthy_string_spec m)|]; naive_solver.
Qed.

Lemma field_view_name (v : View.t) p st ip sp sc f :
  v = UserDialog_view p st ip sp sc -> TextFieldView.name (field_view v f) = field_name f.
Proof. intros ->. by destruct f. Qed.

#[export] Hint Rewrite js_or_default : js.

Ltac render_unfold := unfold UserDialog_view, field_view; cbn [View.open View.title
  View.formKey View.username View.password View.confirmPassword View.cancel View.submit
  TextFieldView.name TextFieldView.label TextFieldView.required TextFieldView.disabled
  TextFieldView.type TextFieldView.defaultValue TextFieldView.error
  TextFieldView.helperText TextFieldView.toggleIcon ButtonView.label ButtonView.type
  ButtonView.disabled ButtonView.startIcon].

(** ** Theorems *)

(** C9: pre-filled values.  The username and password inputs default to
    the first non-empty one of the last submitted value and the existing
    user's stored value, else the empty string: [x || user?.x || ''] is
    the spec's precedence with JavaScript's truthiness. *)
Theorem default_values_precedence props state ip sp sc :
  let v := UserDialog_view props state ip sp sc in
  TextFieldView.defaultValue (View.username v) =
    Some (first_filled [state_form_value state FUsername; user_username (Props.user props)]) /\
  TextFieldView.defaultValue (View.password v) =
    Some (first_filled [state_form_value state FPassword; user_password (Props.user props)]).
Proof. render_unfold. by rewrite !js_or_default. Qed.

(** C10: field errors.  Each of the three inputs shows the error styling
    exactly when the action-state carries a non-empty message for its
    name, and its helper text is that message. *)
Theorem field_error_display props state ip sp sc (f : Field) :
  let tf := field_view (UserDialog_view props state ip sp sc) f in
  (TextFieldView.error tf = true <-> exists m, state_error state f = Some m /\ m <> "") /\
  TextFieldView.helperText tf = state_error state f.
Proof. destruct f; render_unfold; split; auto; apply js_bool_option_string. Qed.

(** C11: pending lock-out.  While an action is pending the three inputs,
    Cancel and Submit are disabled and Submit shows the progress icon;
    when none is pending they are enabled and no progress icon shows. *)
Theorem pending_disables_controls props state ip sp sc :
  let v := UserDialog_view props state ip sp sc in
  (forall f, TextFieldView.disabled (field_view v f) = ip) /\
  ButtonView.disabled (View.cancel v) = ip /\
  ButtonView.disabled (View.submit v) = ip /\
  (ButtonView.startIcon (View.submit v) = Some CircularProgress <-> ip = true).
Proof.
  render_unfold. split; [by intros []|]. do 2 (split; [done|]).
  destruct ip; naive_solver.
Qed.

(** C18: visibility toggles.  The password input renders as plain text iff
    its flag is set, and its toggle shows the "hide" icon exactly then;
    likewise for the confirmation input with its own flag.  The flags
    change nothing else of the view. *)
Theorem visibility_flags props state ip sp sc :
  let v := UserDialog_view props state ip sp sc in
  TextFieldView.type (View.password v) = Some (if sp then "text" else "password") /\
  TextFieldView.toggleIcon (View.password v) = Some (if sp then VisibilityOff else Visibility) /\
  TextFieldView.type (View.confirmPassword v) = Some (if sc then "text" else "password") /\
  TextFieldView.toggleIcon (View.confirmPassword v) =
    Some (if sc then VisibilityOff else Visibility) /\
  (forall sp' sc' f,
     let v' := UserDialog_view props state ip sp' sc' in
     TextFieldView.defaultValue (field_view v' f) = TextFieldView.defaultValue (field_view v f) /\
     TextFieldView.error (field_view v' f) = TextFieldView.error (field_view v f) /\
     View.formKey v' = View.formKey v).
Proof. render_unfold. do 4 (split; [by destruct sp, sc|]). intros ? ? []; done. Qed.

(** C12: create and edit mode.  Without a user the dialog reads "Nuevo
    usuario", submits with "Crear" and keys its form "new"; with a user it
    reads "Editar usuario", submits with "Actualizar" and keys the form
    with the user's id, or "new" when the user has none. *)
Theorem mode_of_user props state ip sp sc :
  let v := UserDialog_view props state ip sp sc in
  match Props.user props with
  | None => View.title v = "Nuevo usuario" /\ ButtonView.label (View.submit v) = "Crear" /\
            View.formKey v = "new"
  | Some u => View.title v = "Editar usuario" /\
              ButtonView.label (View.submit v) = "Actualizar" /\
              View.formKey v = js_nullish (UserType.id u) "new"
  end.
Proof. render_unfold. by destruct (Props.user props). Qed.

(** C19: the form's identity key does not tell every user from "create":
    a user is given the same key as the create form exactly when it has
    no id or its id is the string "new", so switching between such a user
    and the create form does not remount the form. *)
Theorem form_key_collision (u : UserType.t) :
  form_key (Some u) = form_key None <->
  UserType.id u = None \/ UserType.id u = Some "new".
Proof. unfold form_key; cbn. destruct (UserType.id u); cbn; naive_solver. Qed.
