(* ===== verification/Dialog.v ===== *)
(** * Dialog: one mounted [UserDialog] as a step machine

    The state of a mounted [UserDialog] is what survives between renders:
    the props its parent last passed, the [useActionState] hook (lines
    34-37), the two [useState] flags (lines 38-39), and the form subtree
    [<Box key=... component="form">] (line 47) when it is mounted, with its
    key and the current text of its three uncontrolled inputs.  Each
    mounted form instance has an identity (React's fiber), drawn from a
    counter [next_form]; each action in flight remembers the instance
    that submitted it, because React resets that instance, and only it,
    when the action completes.  Events are what can happen to a mounted
    dialog: the parent re-renders it, the user types, clicks a toggle
    (lines 40-42, 106), submits (line 47's [action]), clicks Cancel (line
    117) or dismisses the dialog (line 45's [onClose]), and the handler's
    promise resolves.  A step returns the calls of [onClose] and
    [handleCreateEdit] it makes, or [None] when the event cannot happen
    (its control is disabled or not on screen, the browser's constraint
    validation blocks the submission, or no promise is pending).

    The library behaviour the model relies on: MUI's [Dialog] unmounts its
    content while closed; React remounts a subtree whose [key] changes; an
    input keeps its text across renders and takes its [defaultValue] only
    when mounted or when the form is reset; a form whose function [action]
    runs is reset when the action's transition completes, if that form is
    still mounted; the browser does not submit a form with an empty
    [required] enabled input; a disabled control receives no event.  The
    hook is any implementation of [ActionStateHookLaws]. *)

From stdpp Require Import base list strings option.
From S2P Require Import Prelude Model ActionHook Render.
Local Open Scope js_scope.

Section Dialog.
Context {H : Type} `{Hk : ActionStateHook H (option UserActionState) FormData}.

(** A mounted form subtree: its identity, its key and its inputs' current
    text. *)
Record FormInstance := mk_form {
  fi_id : nat;
  fi_key : string;
  fi_values : UserFormValues.t
}.

Record DialogState := mk_dialog {
  props : Props.t;
  hook : H;
  showPassword : bool;
  showConfirmPassword : bool;
  form : option FormInstance;
  next_form : nat;
  resets : list nat
}.

Inductive Event :=
| SetProps (p : Props.t)
| Input (f : Field) (s : string)
| TogglePassword
| ToggleConfirmPassword
| Submit
| Resolve (r : option UserActionState)
| ClickCancel
| Dismiss.

Inductive Effect :=
| CallOnClose
| CallHandleCreateEdit (prev : option UserActionState) (formData : FormData).

Definition with_props (st : DialogState) (p : Props.t) : DialogState :=
  mk_dialog p (hook st) (showPassword st) (showConfirmPassword st) (form st)
    (next_form st) (resets st).
Definition with_action (st : DialogState) (h : H) (rs : list nat) : DialogState :=
  mk_dialog (props st) h (showPassword st) (showConfirmPassword st) (form st)
    (next_form st) rs.
Definition with_form (st : DialogState) (fi : option FormInstance) : DialogState :=
  mk_dialog (props st) (hook st) (showPassword st) (showConfirmPassword st) fi
    (next_form st) (resets st).

(** The element tree of the current render. *)
Definition view (st : DialogState) : View.t :=
  UserDialog_view (props st) (ash_state (hook st)) (ash_pending (hook st))
    (showPassword st) (showConfirmPassword st).

(** The text of an input that takes its [defaultValue]: [undefined]
    leaves it empty. *)
Definition default_values (v : View.t) : UserFormValues.t :=
  UserFormValues.mk
    (from_option id "" (TextFieldView.defaultValue (View.username v)))
    (from_option id "" (TextFieldView.defaultValue (View.password v)))
    (from_option id "" (TextFieldView.defaultValue (View.confirmPassword v))).

(** Mounting a new form instance under the current key, with the current
    defaults. *)
Definition mount (st : DialogState) : DialogState :=
  let v := view st in
  mk_dialog (props st) (hook st) (showPassword st) (showConfirmPassword st)
    (Some (mk_form (next_form st) (View.formKey v) (default_values v)))
    (S (next_form st)) (resets st).

(** Reconciliation of the form subtree with the current render. *)
Definition reconcile (st : DialogState) : DialogState :=
  let v := view st in
  if View.open v then
    match form st with
    | Some fi => if bool_decide (fi_key fi = View.formKey v) then st else mount st
    | None => mount st
    end
  else with_form st None.

(** [form.reset()] on the instance [target]: when it is still the mounted
    form, its inputs take their current defaults; an unmounted instance
    has nothing to reset. *)
Definition reset_form (target : nat) (st : DialogState) : DialogState :=
  match form st with
  | Some fi =>
      if bool_decide (fi_id fi = target)
      then with_form st (Some (mk_form (fi_id fi) (fi_key fi) (default_values (view st))))
      else st
  | None => st
  end.

(** Constraint validation of a [required] input: an enabled one with
    empty text is missing its value. *)
Definition value_missing (tf : TextFieldView.t) (s : string) : bool :=
  TextFieldView.required tf && negb (TextFieldView.disabled tf) && bool_decide (s = "").

(** The form's constraint validation before submission. *)
Definition checkValidity (v : View.t) (vals : UserFormValues.t) : bool :=
  forallb (fun f => negb (value_missing (field_view v f) (form_value vals f))) fields.

Definition handler_calls (cs : list (option UserActionState * FormData)) : list Effect :=
  map (fun c => CallHandleCreateEdit c.1 c.2) cs.

(** The first render of a dialog mounted with props [p]. *)
Definition init (p : Props.t) : DialogState :=
  reconcile (mk_dialog p (ash_init (Some createInitialState)) false false None 0 []).

Definition step (st : DialogState) (e : Event) : option (DialogState * list Effect) :=
  let v := view st in
  match e with
  | SetProps p => Some (reconcile (with_props st p), [])
  | Input f s =>
      fi ← form st;
      if TextFieldView.disabled (field_view v f) then None
      else Some (with_form st (Some (mk_form (fi_id fi) (fi_key fi)
                                       (set_form_value (fi_values fi) f s))), [])
  | TogglePassword =>
      _ ← form st;
      Some (mk_dialog (props st) (hook st) (negb (showPassword st))
              (showConfirmPassword st) (form st) (next_form st) (resets st), [])
  | ToggleConfirmPassword =>
      _ ← form st;
      Some (mk_dialog (props st) (hook st) (showPassword st)
              (negb (showConfirmPassword st)) (form st) (next_form st) (resets st), [])
  | Submit =>
      fi ← form st;
      if ButtonView.disabled (View.submit v) then None
      else if negb (checkValidity v (fi_values fi)) then None
      else
        let '(h', cs) := ash_dispatch (form_data_of (fi_values fi)) (hook st) in
        Some (reconcile (with_action st h' (resets st ++ [fi_id fi])), handler_calls cs)
  | Resolve r =>
      '(h', cs) ← ash_settle r (hook st);
      match resets st with
      | target :: rest => Some (reset_form target (reconcile (with_action st h' rest)),
                                handler_calls cs)
      | [] => Some (reconcile (with_action st h' []), handler_calls cs)
      end
  | ClickCancel =>
      _ ← form st;
      if ButtonView.disabled (View.cancel v) then None else Some (st, [CallOnClose])
  | Dismiss => if View.open v then Some (st, [CallOnClose]) else None
  end.

Inductive reachable : DialogState -> Prop :=
| reachable_init p : reachable (init p)
| reachable_step st e st' effs :
    reachable st -> step st e = Some (st', effs) -> reachable st'.

(** Running a sequence of events from a state. *)
Fixpoint run (st : DialogState) (es : list Event) : option (DialogState * list Effect) :=
  match es with
  | [] => Some (st, [])
  | e :: es' =>
      '(st1, eff1) ← step st e;
      '(st2, eff2) ← run st1 es';
      Some (st2, eff1 ++ eff2)
  end.
End Dialog.

Arguments DialogState H : clear implicits.
Arguments reconcile : simpl never.
Arguments reset_form : simpl never.
Arguments checkValidity : simpl never.
Arguments view : simpl never.

Section Theorems.
Context {H : Type} `{Hk : ActionStateHook H (option UserActionState) FormData}
  `{!ActionStateHookLaws H (option UserActionState) FormData}.
Implicit Types (st : DialogState H).
Local Arguments form_data_of : simpl never.

(** The form subtree is mounted exactly while the dialog is open, under
    the key of the current render. *)
Definition form_ok st : Prop :=
  match form st with
  | Some fi => Props.open (props st) = true /\ fi_key fi = form_key (Props.user (props st))
  | None => Props.open (props st) = false
  end.

(** Every form instance mounted so far, and every one an action in flight
    will reset, was drawn from the counter. *)
Definition ids_ok st : Prop :=
  (forall fi, form st = Some fi -> fi_id fi < next_form st) /\
  Forall (fun i => i < next_form st) (resets st).

(** The invariant of a mounted dialog: a well-formed hook with at most one
    action in flight, the form subtree in place, and one reset target per
    action in flight. *)
Definition dialog_inv st : Prop :=
  ash_wf (hook st) /\ ash_in_flight (hook st) <= 1 /\ form_ok st /\ ids_ok st /\
  length (resets st) = ash_in_flight (hook st).

(** *** Lemmas on the view and on reconciliation *)

Lemma view_pending st (f : Field) :
  TextFieldView.disabled (field_view (view st) f) = ash_pending (hook st) /\
  ButtonView.disabled (View.submit (view st)) = ash_pending (hook st) /\
  ButtonView.disabled (View.cancel (view st)) = ash_pending (hook st).
Proof. by destruct f. Qed.

Lemma view_disabled st (f : Field) :
  TextFieldView.disabled (field_view (view st) f) = ash_pending (hook st).
Proof. by destruct f. Qed.

Lemma view_required st (f : Field) : TextFieldView.required (field_view (view st) f) = true.
Proof. by destruct f. Qed.

Lemma view_open st : View.open (view st) = Props.open (props st).
Proof. done. Qed.

Lemma view_formKey st : View.formKey (view st) = form_key (Props.user (props st)).
Proof. done. Qed.

Lemma fields_complete (f : Field) : In f fields.
Proof. destruct f; cbn; tauto. Qed.

(** With nothing pending, the browser submits the form exactly when none
    of the three [required] inputs is empty. *)
Lemma checkValidity_idle st (vals : UserFormValues.t) :
  ash_pending (hook st) = false ->
  checkValidity (view st) vals = true <-> forall f, form_value vals f <> "".
Proof.
  intros Hp. unfold checkValidity, value_missing. rewrite forallb_forall. split.
  - intros Hall f. specialize (Hall f (fields_complete f)).
    rewrite view_required, (proj1 (view_pending st f)), Hp in Hall. cbn in Hall.
    by case_bool_decide.
  - intros Hne f _. rewrite view_required, (proj1 (view_pending st f)), Hp. cbn.
    by rewrite bool_decide_false.
Qed.

Lemma checkValidity_idle_missing st (vals : UserFormValues.t) :
  ash_pending (hook st) = false ->
  checkValidity (view st) vals = false <-> exists f, form_value vals f = "".
Proof.
  intros Hp. destruct (checkValidity (view st) vals) eqn:E.
  - split; [done|]. intros [f Hf]. exfalso. exact (proj1 (checkValidity_idle st vals Hp) E f Hf).
  - split; [intros _|done]. unfold checkValidity, value_missing in E. cbn [fields forallb] in E.
    rewrite !view_required, !view_disabled, Hp in E. cbn in E.
    repeat (case_bool_decide; cbn in E); try done;
      first [by exists FUsername|by exists FPassword|by exists FConfirmPassword].
Qed.

Lemma pending_false_in_flight (h : H) :
  ash_pending h = false -> ash_in_flight h = 0.
Proof. rewrite ash_pending_in_flight. case_bool_decide; [done|lia]. Qed.

Lemma pending_true_in_flight (h : H) :
  ash_in_flight h <= 1 -> ash_pending h = true -> ash_in_flight h = 1.
Proof. rewrite ash_pending_in_flight. case_bool_decide; [lia|done]. Qed.

Lemma Forall_lt_S (l : list nat) (n : nat) :
  Forall (fun i => i < n) l -> Forall (fun i => i < S n) l.
Proof. intros Hl. eapply Forall_impl; [|exact Hl]. cbn. lia. Qed.

Lemma reconcile_fields st :
  props (reconcile st) = props st /\ hook (reconcile st) = hook st /\
  showPassword (reconcile st) = showPassword st /\
  showConfirmPassword (reconcile st) = showConfirmPassword st /\
  resets (reconcile st) = resets st.
Proof.
  unfold reconcile. destruct (View.open _), (form st); [case_bool_decide| | |]; done.
Qed.

Lemma reconcile_form_ok st : form_ok (reconcile st).
Proof.
  unfold reconcile, form_ok. destruct (View.open (view st)) eqn:Ho;
    [destruct (form st) as [fi|] eqn:Hf; [case_bool_decide|]|]; cbn; rewrite ?Hf; auto.
Qed.

Lemma mount_ids_ok st : ids_ok st -> ids_ok (mount st).
Proof. intros [_ Hr]. split; [intros ? [= <-]; cbn; lia|by apply Forall_lt_S]. Qed.

Lemma with_form_None_ids_ok st : ids_ok st -> ids_ok (with_form st None).
Proof. intros [_ Hr]. split; [done|exact Hr]. Qed.

Lemma reconcile_ids_ok st : ids_ok st -> ids_ok (reconcile st).
Proof.
  intros Hi. unfold reconcile. destruct (View.open _); [destruct (form st); [case_bool_decide|]|];
    auto using mount_ids_ok, with_form_None_ids_ok.
Qed.

(** A dialog whose form subtree is in place is its own reconciliation. *)
Lemma reconcile_id st : form_ok st -> reconcile st = st.
Proof.
  unfold reconcile, form_ok. rewrite view_open, view_formKey. destruct (form st) as [fi|] eqn:Hf.
  - intros [Ho Hk']. by rewrite Ho, bool_decide_true.
  - intros ->. destruct st; cbn in *. by subst.
Qed.

Lemma reset_form_fields t st :
  props (reset_form t st) = props st /\ hook (reset_form t st) = hook st /\
  showPassword (reset_form t st) = showPassword st /\
  showConfirmPassword (reset_form t st) = showConfirmPassword st /\
  resets (reset_form t st) = resets st /\ next_form (reset_form t st) = next_form st.
Proof. unfold reset_form. destruct (form st); [case_bool_decide|]; done. Qed.

Lemma reset_form_ok t st : form_ok st -> form_ok (reset_form t st).
Proof.
  unfold reset_form, form_ok. destruct (form st) eqn:Hf; [case_bool_decide|]; cbn; rewrite ?Hf; tauto.
Qed.

Lemma reset_form_ids_ok t st : ids_ok st -> ids_ok (reset_form t st).
Proof.
  intros Hi. unfold reset_form.
  destruct (form st) as [fi|] eqn:E; [case_bool_decide|]; [|exact Hi..].
  destruct Hi as [Hf Hr]. split; [|done]. intros ? [= <-]. cbn. by apply (Hf fi).
Qed.



Lemma dialog_inv_init p : dialog_inv (init p).
Proof.
  unfold init, dialog_inv.
  set (st0 := mk_dialog p (ash_init (Some createInitialState)) false false None 0 []).
  destruct (reconcile_fields st0) as (_ & -> & _ & _ & ->). cbn.
  split_and!; [apply ash_init_wf|rewrite ash_init_in_flight; lia|apply reconcile_form_ok
    |apply reconcile_ids_ok; split; [done|constructor]|by rewrite ash_init_in_flight].
Qed.

(** *** Lemmas on single steps *)

Lemma step_submit_idle st fi :
  dialog_inv st -> form st = Some fi -> ash_pending (hook st) = false ->
  checkValidity (view st) (fi_values fi) = true ->
  step st Submit =
    Some (with_action st (ash_dispatch (form_data_of (fi_values fi)) (hook st)).1
            (resets st ++ [fi_id fi]),
          [CallHandleCreateEdit (ash_state (hook st)) (form_data_of (fi_values fi))]).
Proof.
  intros (Hwf & _ & Hok & _) Hf Hp Hv. cbn. rewrite Hf. cbn.
  rewrite (proj1 (proj2 (view_pending st FUsername))), Hp, Hv.
  rewrite (ash_dispatch_idle _ _ (pending_false_in_flight _ Hp)). cbn.
  by rewrite reconcile_id.
Qed.

Lemma step_submit_invalid st fi :
  form st = Some fi -> checkValidity (view st) (fi_values fi) = false -> step st Submit = None.
Proof. intros Hf Hv. cbn. rewrite Hf. cbn. rewrite Hv. by destruct (ButtonView.disabled _). Qed.

Lemma step_resolve_pending st r :
  dialog_inv st -> ash_pending (hook st) = true ->
  exists h' t, ash_settle r (hook st) = Some (h', []) /\ resets st = [t] /\
    step st (Resolve r) = Some (reset_form t (with_action st h' []), []).
Proof.
  intros (Hwf & Hfl & Hok & _ & Hlen) Hp.
  pose proof (pending_true_in_flight _ Hfl Hp) as H1.
  destruct (resets st) as [|t [|]] eqn:Hr; cbn in Hlen; try lia.
  destruct (ash_settle r (hook st)) as [[h' cs]|] eqn:Hs.
  - pose proof (ash_settle_last _ _ _ _ H1 Hs) as ->. exists h', t.
    split_and!; [done|done|]. cbn. rewrite Hs, Hr. cbn. by rewrite reconcile_id.
  - apply ash_settle_None in Hs. lia.
Qed.

Lemma step_pending_refused st :
  ash_pending (hook st) = true ->
  step st Submit = None /\ step st ClickCancel = None /\
  forall f s, step st (Input f s) = None.
Proof.
  intros Hp. cbn. destruct (form st); [|done]. cbn.
  rewrite (proj1 (proj2 (view_pending st FUsername))),
    (proj2 (proj2 (view_pending st FUsername))), Hp.
  split_and!; [done|done|]. intros g s. by rewrite (proj1 (view_pending st g)), Hp.
Qed.

Ltac form_ok_tac :=
  match goal with
  | Hf : form ?st = _, Hok : form_ok ?st |- form_ok _ =>
      unfold form_ok in *; rewrite Hf in Hok; exact Hok
  end.

(** Changing the text of the mounted form keeps the invariant. *)
Lemma dialog_inv_with_form st fi fi' :
  dialog_inv st -> form st = Some fi -> fi_id fi' = fi_id fi -> fi_key fi' = fi_key fi ->
  dialog_inv (with_form st (Some fi')).
Proof.
  intros (Hwf & Hfl & Hok & [Hid Hrs] & Hlen) Hf Hi Hk'.
  unfold form_ok in Hok. rewrite Hf in Hok.
  split_and!; try done; [cbn; by rewrite Hk'|].
  split; [|done]. intros ? [= <-]. rewrite Hi. by apply Hid.
Qed.

Lemma dialog_inv_step st e st' effs :
  dialog_inv st -> step st e = Some (st', effs) -> dialog_inv st'.
Proof.
  intros Hinv. destruct e.
  - cbn. intros [= <- _]. destruct Hinv as (Hwf & Hfl & _ & Hids & Hlen).
    destruct (reconcile_fields (with_props st p)) as (_ & Hh & _ & _ & Hr).
    split_and!; rewrite ?Hh, ?Hr; [done|done|apply reconcile_form_ok
      |apply reconcile_ids_ok, Hids|done].
  - cbn. destruct (form st) as [fi|] eqn:Hf; [|done]. cbn.
    destruct (TextFieldView.disabled _); intros; simplify_eq/=.
    by eapply dialog_inv_with_form.
  - cbn. intros Hs. destruct (form st) eqn:Hf; simplify_eq/=. rewrite <-Hf. exact Hinv.
  - cbn. intros Hs. destruct (form st) eqn:Hf; simplify_eq/=. rewrite <-Hf. exact Hinv.
  - destruct Hinv as (Hwf & Hfl & Hok & [Hid Hrs] & Hlen) eqn:Hinv'. clear Hinv'.
    destruct (form st) as [fi|] eqn:Hf; [|cbn; by rewrite Hf].
    destruct (ash_pending (hook st)) eqn:Hp; [by rewrite (proj1 (step_pending_refused st Hp))|].
    destruct (checkValidity (view st) (fi_values fi)) eqn:Hv;
      [|by rewrite (step_submit_invalid st fi Hf Hv)].
    rewrite (step_submit_idle st fi Hinv Hf Hp Hv). intros; simplify_eq/=.
    unfold dialog_inv. cbn [hook resets with_action].
    rewrite ash_dispatch_in_flight, (pending_false_in_flight _ Hp) by done.
    split_and!; [apply ash_dispatch_wf|lia|exact Hok| |].
    + split; [intros fi0; cbn; rewrite Hf; apply Hid|]. apply Forall_app. split; [done|].
      constructor; [exact (Hid fi eq_refl)|done].
    + rewrite length_app, Hlen, (pending_false_in_flight _ Hp). done.
  - destruct (ash_pending (hook st)) eqn:Hp.
    + destruct (step_resolve_pending st r Hinv Hp) as (h' & t & Hs & Hr & ->).
      intros; simplify_eq/=. destruct Hinv as (Hwf & Hfl & Hok & [Hid Hrs] & Hlen).
      unfold dialog_inv. destruct (reset_form_fields t (with_action st h' [])) as (_ & -> & _ & _ & -> & _).
      destruct (ash_settle_Some _ _ _ _ Hs) as [_ Hn].
      pose proof (pending_true_in_flight _ Hfl Hp).
      split_and!; [eauto using ash_settle_wf|cbn; lia|by apply reset_form_ok
        |apply reset_form_ids_ok; split; [done|constructor]|cbn; lia].
    + cbn. by rewrite (proj2 (ash_settle_None _ _) (pending_false_in_flight _ Hp)).
  - cbn. destruct (form st); [|done]. cbn.
    destruct (ButtonView.disabled _); intros; simplify_eq/=. exact Hinv.
  - cbn. destruct (View.open _); intros; simplify_eq/=. exact Hinv.
Qed.

Lemma reachable_dialog_inv st : reachable st -> dialog_inv st.
Proof.
  induction 1; eauto using dialog_inv_init, dialog_inv_step.
Qed.

Definition is_handler_call (e : Effect) : bool :=
  match e with CallHandleCreateEdit _ _ => true | CallOnClose => false end.

Definition handler_call_count (effs : list Effect) : nat :=
  length (List.filter is_handler_call effs).

Lemma reachable_run st es st' effs :
  reachable st -> run st es = Some (st', effs) -> reachable st'.
Proof.
  revert st effs. induction es as [|e es IH]; intros st effs Hr Hrun; cbn in Hrun.
  - by simplify_eq.
  - destruct (step st e) as [[st1 eff1]|] eqn:Hs; [|discriminate]. cbn in Hrun.
    destruct (run st1 es) as [[st2 eff2]|] eqn:Hr2; [|discriminate]. simplify_eq/=.
    eapply IH; [eapply reachable_step; eauto|exact Hr2].
Qed.

(** *** Theorems *)

(** C1: the invariant of a mounted dialog.  In every reachable state at
    most one [handleCreateEdit] call is in flight, and the form subtree
    is mounted exactly while the dialog is open, under the key of the
    current user. *)
Theorem reachable_invariant st :
  reachable st ->
  ash_in_flight (hook st) <= 1 /\
  (form st <> None <-> Props.open (props st) = true) /\
  (forall fi, form st = Some fi -> fi_key fi = form_key (Props.user (props st))).
Proof.
  intros Hr. destruct (reachable_dialog_inv st Hr) as (_ & Hfl & Hok & _).
  unfold form_ok in Hok. split; [done|].
  destruct (form st) as [fi|].
  - destruct Hok as [Ho Hk']. split; [split; [done|discriminate]|]. by intros ? [= <-].
  - split; [|done]. rewrite Hok. split; [by intros []|discriminate].
Qed.

(** C2: submitting.  When the form is on screen and nothing is pending,
    the browser submits it exactly when none of the three [required]
    inputs is empty.  A submission calls [handleCreateEdit] exactly once,
    with the current action-state and the form data of the three inputs'
    current text; the dialog becomes pending, the action-state, the props
    and the inputs' text are unchanged, and the mounted form is recorded
    as the one the action will reset. *)
Theorem submit_calls_handler st fi :
  reachable st -> form st = Some fi -> ash_pending (hook st) = false ->
  (step st Submit = None <-> exists f, form_value (fi_values fi) f = "") /\
  ((forall f, form_value (fi_values fi) f <> "") ->
   exists st',
    step st Submit =
      Some (st', [CallHandleCreateEdit (ash_state (hook st)) (form_data_of (fi_values fi))]) /\
    ash_pending (hook st') = true /\ ash_state (hook st') = ash_state (hook st) /\
    props st' = props st /\ form st' = form st /\ resets st' = [fi_id fi]).
Proof.
  intros Hr Hf Hp. pose proof (reachable_dialog_inv st Hr) as Hinv.
  pose proof Hinv as (Hwf & _ & _ & _ & Hlen).
  split.
  - destruct (checkValidity (view st) (fi_values fi)) eqn:Ev.
    + rewrite (step_submit_idle st fi Hinv Hf Hp Ev). split; [done|].
      intros [f Hf0]. exfalso. exact (proj1 (checkValidity_idle st _ Hp) Ev f Hf0).
    + rewrite (step_submit_invalid st fi Hf Ev). split; [|done].
      intros _. by apply (checkValidity_idle_missing st _ Hp).
  - intros Hne. pose proof (proj2 (checkValidity_idle st _ Hp) Hne) as Ev.
    eexists. split; [exact (step_submit_idle st fi Hinv Hf Hp Ev)|]. cbn.
    rewrite (pending_false_in_flight _ Hp) in Hlen. apply nil_length_inv in Hlen.
    rewrite ash_pending_in_flight, ash_dispatch_in_flight, ash_dispatch_state, Hlen by done.
    by rewrite bool_decide_true by lia.
Qed.

(** C3: the lock-out while pending.  While a submission is pending,
    Submit, Cancel and typing into any input are refused: no call is
    made and the state does not change. *)
Theorem pending_refuses_input st :
  ash_pending (hook st) = true ->
  step st Submit = None /\ step st ClickCancel = None /\
  forall f s, step st (Input f s) = None.
Proof. apply step_pending_refused. Qed.




Lemma step_toggle_password st fi :
  form st = Some fi ->
  step st TogglePassword =
    Some (mk_dialog (props st) (hook st) (negb (showPassword st))
            (showConfirmPassword st) (form st) (next_form st) (resets st), []).
Proof. intros Hf. cbn. by rewrite Hf. Qed.

Lemma xorb_negb_odd_succ (b : bool) (n : nat) :
  xorb (negb b) (Nat.odd n) = xorb b (Nat.odd (S n)).
Proof. rewrite Nat.odd_succ, <- Nat.negb_odd. by destruct b, (Nat.odd n). Qed.

Definition event_submits (e : Event) : nat := match e with Submit => 1 | _ => 0 end.
Definition event_resolves (e : Event) : nat := match e with Resolve _ => 1 | _ => 0 end.
Definition pending_count (h : H) : nat := if ash_pending h then 1 else 0.

(** What one step does to the calls and to the pending flag: a Submit
    makes one call and starts pending, a Resolve ends pending, and every
    other step leaves both alone. *)
Lemma step_accounting st e st' effs :
  dialog_inv st -> step st e = Some (st', effs) ->
  handler_call_count effs = event_submits e /\
  event_submits e + pending_count (hook st) = event_resolves e + pending_count (hook st').
Proof.
  intros Hinv Hs. destruct e.
  - cbn in Hs. simplify_eq. by destruct (reconcile_fields (with_props st p)) as (_ & -> & _).
  - cbn in Hs. destruct (form st); cbn in Hs; [destruct (TextFieldView.disabled _)|];
      by simplify_eq.
  - cbn in Hs. destruct (form st); by simplify_eq/=.
  - cbn in Hs. destruct (form st); by simplify_eq/=.
  - destruct (form st) as [fi|] eqn:Hf; [|cbn in Hs; by rewrite Hf in Hs].
    destruct (ash_pending (hook st)) eqn:Hp.
    + by rewrite (proj1 (step_pending_refused st Hp)) in Hs.
    + destruct (checkValidity (view st) (fi_values fi)) eqn:Hv;
        [|by rewrite (step_submit_invalid st fi Hf Hv) in Hs].
      rewrite (step_submit_idle st fi Hinv Hf Hp Hv) in Hs. simplify_eq/=. split; [done|].
      unfold pending_count. rewrite Hp, ash_pending_in_flight, ash_dispatch_in_flight
        by apply Hinv.
      by rewrite bool_decide_true by lia.
  - destruct (ash_pending (hook st)) eqn:Hp.
    + destruct (step_resolve_pending st r Hinv Hp) as (h' & t & Hset & _ & Hstep).
      rewrite Hstep in Hs. simplify_eq. split; [done|].
      destruct (reset_form_fields t (with_action st h' [])) as (_ & -> & _).
      cbn [hook with_action]. destruct (ash_settle_Some _ _ _ _ Hset) as [_ Hn].
      pose proof (pending_true_in_flight _ (proj1 (proj2 Hinv)) Hp).
      unfold pending_count. rewrite Hp, ash_pending_in_flight.
      rewrite bool_decide_false by lia. done.
    + cbn in Hs.
      by rewrite (proj2 (ash_settle_None _ _) (pending_false_in_flight _ Hp)) in Hs.
  - cbn in Hs. destruct (form st); cbn in Hs; [destruct (ButtonView.disabled _)|];
      by simplify_eq.
  - cbn in Hs. destruct (View.open _); by simplify_eq.
Qed.

Lemma handler_call_count_app (e1 e2 : list Effect) :
  handler_call_count (e1 ++ e2) = handler_call_count e1 + handler_call_count e2.
Proof. unfold handler_call_count. by rewrite filter_app, length_app. Qed.

Definition count_submits (es : list Event) : nat := sum_list (map event_submits es).
Definition count_resolves (es : list Event) : nat := sum_list (map event_resolves es).

(** C5: submissions and resolutions alternate.  Along any accepted run of
    events from a reachable state, the handler is called once per Submit
    of the run, and the Submits and Resolves balance up to the pending
    flags at the two ends: no two submissions are ever outstanding, no
    resolution comes without one, and the counts differ by at most one. *)
Theorem run_submits_resolves_alternate st es st' effs :
  reachable st -> run st es = Some (st', effs) ->
  handler_call_count effs = count_submits es /\
  count_submits es + pending_count (hook st) = count_resolves es + pending_count (hook st') /\
  count_resolves es <= count_submits es + 1 /\ count_submits es <= count_resolves es + 1.
Proof.
  revert st effs. induction es as [|e es IH]; intros st effs Hr Hrun; cbn in Hrun.
  - simplify_eq. unfold pending_count. cbn. destruct (ash_pending _); lia.
  - destruct (step st e) as [[st1 eff1]|] eqn:Hs; [|discriminate]. cbn in Hrun.
    destruct (run st1 es) as [[st2 eff2]|] eqn:Hr2; [|discriminate]. simplify_eq/=.
    destruct (step_accounting st e st1 eff1 (reachable_dialog_inv st Hr) Hs) as [Hc Hp].
    destruct (IH st1 eff2 (reachable_step _ _ _ _ Hr Hs) Hr2) as (Hc' & Hp' & _).
    unfold count_submits, count_resolves, pending_count in *. cbn.
    rewrite handler_call_count_app, Hc, Hc'.
    destruct (ash_pending (hook st)), (ash_pending (hook st1)), (ash_pending (hook st'));
      cbn in *; lia.
Qed.

(** C13: Cancel.  With the form on screen and nothing pending, Cancel
    calls [onClose] once, submits nothing and changes no state. *)
Theorem cancel_calls_onClose st fi :
  form st = Some fi -> ash_pending (hook st) = false ->
  step st ClickCancel = Some (st, [CallOnClose]).
Proof.
  intros Hf Hp. cbn. rewrite Hf. cbn.
  by rewrite (proj2 (proj2 (view_pending st FUsername))), Hp.
Qed.

(** C14: the dialog's own dismissal is not locked.  While a submission
    is pending the Cancel button is refused, but Escape or a backdrop
    click still calls [onClose], with the handler's promise unsettled. *)
Theorem dismiss_while_pending st :
  Props.open (props st) = true -> ash_pending (hook st) = true ->
  step st Dismiss = Some (st, [CallOnClose]) /\ step st ClickCancel = None.
Proof.
  intros Ho Hp. split; [cbn; by rewrite view_open, Ho|].
  apply (step_pending_refused st Hp).
Qed.

(** C17: the password toggle.  On a mounted form, [n] clicks on the
    password toggle flip its flag [n] times: the input renders as plain
    text iff the flag started set xor [n] is odd.  Nothing else changes:
    not the inputs' text, the hook, the props or the other flag. *)
Theorem toggle_password_parity st fi n :
  form st = Some fi ->
  exists st', run st (repeat TogglePassword n) = Some (st', []) /\
    showPassword st' = xorb (showPassword st) (Nat.odd n) /\
    TextFieldView.type (View.password (view st')) =
      Some (if xorb (showPassword st) (Nat.odd n) then "text" else "password") /\
    form st' = form st /\ hook st' = hook st /\ props st' = props st /\
    showConfirmPassword st' = showConfirmPassword st.
Proof.
  revert st. induction n as [|n IH]; intros st Hf.
  - exists st. unfold view. cbn. destruct (showPassword st); by split_and!.
  - cbn [repeat run]. rewrite (step_toggle_password st fi Hf). cbn.
    destruct (IH (mk_dialog (props st) (hook st) (negb (showPassword st))
                    (showConfirmPassword st) (form st) (next_form st) (resets st)) Hf)
      as (st' & -> & Hs & Ht & Hrest). cbn in *.
    rewrite xorb_negb_odd_succ in Hs, Ht. exists st'. destruct Hrest as (? & ? & ? & ?). by split_and!.
Qed.

(** C8: the identity key does not reset the action-state.  When the
    parent switches an open dialog to a user with another key, the form
    is remounted, but the hook and the visibility flags live in
    [UserDialog] itself and survive: the new form's username input is
    pre-filled with the last submitted username before the new user's
    own, and the new user's fields show the old submission's errors. *)
Theorem key_change_keeps_action_state st fi p :
  form st = Some fi -> Props.open p = true -> form_key (Props.user p) <> fi_key fi ->
  exists st', step st (SetProps p) = Some (st', []) /\
    hook st' = hook st /\ showPassword st' = showPassword st /\
    showConfirmPassword st' = showConfirmPassword st /\
    exists fi', form st' = Some fi' /\ fi_key fi' = form_key (Props.user p) /\
      UserFormValues.username (fi_values fi') =
        first_filled [state_form_value (ash_state (hook st)) FUsername;
                      user_username (Props.user p)] /\
      (forall f, TextFieldView.helperText (field_view (view st') f) =
                 state_error (ash_state (hook st)) f).
Proof.
  intros Hf Ho Hk'. cbn. eexists. split; [reflexivity|].
  unfold reconcile. rewrite view_open. cbn [with_props props form]. rewrite Ho, Hf.
  rewrite bool_decide_false by (rewrite view_formKey; cbn; congruence).
  cbn. split_and!; [done..|]. eexists. split_and!; [done|done| |by intros []].
  unfold default_values, view; cbn. by rewrite js_or_default.
Qed.


(** C16: typing.  With the form on screen and nothing pending, typing [s]
    into input [f] sets that input's text to [s] and leaves the other two
    inputs, the hook, the props and the flags as they were. *)
Theorem typing_updates_one_input st fi f s :
  form st = Some fi -> ash_pending (hook st) = false ->
  exists fi', step st (Input f s) = Some (with_form st (Some fi'), []) /\
    fi_key fi' = fi_key fi /\ form_value (fi_values fi') f = s /\
    (forall g, g <> f -> form_value (fi_values fi') g = form_value (fi_values fi) g).
Proof.
  intros Hf Hp. cbn. rewrite Hf. cbn. rewrite (proj1 (view_pending st f)), Hp.
  eexists. split_and!; [reflexivity|done|apply form_value_set_eq|].
  intros g Hg. by apply form_value_set_ne.
Qed.

(** C15: closing and reopening.  Closing the dialog unmounts its form
    (MUI's [Dialog] drops its content while closed); reopening it mounts
    a new form instance, drawn fresh from the counter, with the current
    defaults.  The typed but unsubmitted text is lost, while the hook,
    its action-state and the reset targets of the actions in flight are
    kept. *)
Theorem close_reopen_remounts st :
  exists st', run st [SetProps (Props.mk false (Props.user (props st)));
                      SetProps (Props.mk true (Props.user (props st)))] = Some (st', []) /\
    hook st' = hook st /\ props st' = Props.mk true (Props.user (props st)) /\
    resets st' = resets st /\
    form st' = Some (mk_form (next_form st) (form_key (Props.user (props st)))
                             (default_values (view st'))).
Proof. eexists. split; [reflexivity|]. by split_and!. Qed.

(** C20: the first render.  A freshly mounted dialog is not pending, masks
    both passwords and shows no error; when open, its inputs hold the
    user's username and stored password (empty in create mode) and an
    empty confirmation. *)
Theorem init_render p :
  let st := init p in
  ash_pending (hook st) = false /\ showPassword st = false /\
  showConfirmPassword st = false /\
  (forall f, TextFieldView.error (field_view (view st) f) = false) /\
  form st = if Props.open p then
              Some (mk_form 0 (form_key (Props.user p))
                 (UserFormValues.mk (first_filled [user_username (Props.user p)])
                                    (first_filled [user_password (Props.user p)]) ""))
            else None.
Proof.
  unfold init. set (st0 := mk_dialog p (ash_init (Some createInitialState)) false false None 0 []).
  destruct (reconcile_fields st0) as (_ & Hh & Hs & Hc & _). rewrite Hh, Hs, Hc.
  cbn [hook showPassword showConfirmPassword st0].
  rewrite ash_pending_in_flight, ash_init_in_flight, bool_decide_false by lia.
  split_and!; [done|done|done| |].
  - intros f. unfold view. rewrite Hh, Hs, Hc. cbn. rewrite ash_init_state. by destruct f.
  - unfold reconcile, mount, view, default_values. cbn. rewrite ash_init_state.
    destruct (Props.open p); [|done]. unfold UserDialog_view.
    cbn [with_form form TextFieldView.defaultValue View.username View.password
      View.confirmPassword View.formKey]. by rewrite !js_or_default.
Qed.

End Theorems.

(** ** Witnesses, on React's hook

    A create-mode dialog, the same after typing and submitting, and an
    edit-mode dialog. *)

Definition create_props : Props.t := Props.mk true None.
Definition ann : UserType.t := UserType.mk (Some "1") "ann" "pw-ann".
Definition edit_props : Props.t := Props.mk true (Some ann).

Definition dialog0 : DialogState (@UseActionState.Hook (option UserActionState) FormData) :=
  init create_props.

Definition typed_events : list Event :=
  [Input FUsername "alice"; Input FPassword "p1"; Input FConfirmPassword "p1"].

Definition dialog_typed := from_option fst dialog0 (run dialog0 typed_events).
Definition dialog_pending := from_option fst dialog0 (run dialog0 (typed_events ++ [Submit])).

Lemma dialog_typed_reachable : reachable dialog_typed.
Proof. eapply (reachable_run dialog0 typed_events); [apply reachable_init|reflexivity]. Qed.

Lemma dialog_pending_reachable : reachable dialog_pending.
Proof.
  eapply (reachable_run dialog0 (typed_events ++ [Submit])); [apply reachable_init|reflexivity].
Qed.

Definition failed_state : UserActionState :=
  ActionState.mk (Some (UserFormValues.mk "alice" "p1" "p1"))
    (Some (FieldErrors.mk (Some "Username taken") None None)).

Definition dialog_failed :=
  from_option fst dialog0 (run dialog0 (typed_events ++ [Submit; Resolve (Some failed_state)])).

Definition typed_form : FormInstance := mk_form 0 "new" (UserFormValues.mk "alice" "p1" "p1").

Lemma submit_calls_handler_witness :
  reachable dialog_typed /\ form dialog_typed = Some typed_form /\
  ash_pending (hook dialog_typed) = false /\
  step dialog0 Submit = None /\
  exists st', step dialog_typed Submit =
    Some (st', [CallHandleCreateEdit (Some createInitialState)
                  (form_data_of (UserFormValues.mk "alice" "p1" "p1"))]) /\
    ash_pending (hook st') = true /\ resets st' = [0].
Proof.
  assert (Hf : form dialog_typed = Some typed_form) by reflexivity.
  assert (Hp : ash_pending (hook dialog_typed) = false) by reflexivity.
  assert (Hf0 : form dialog0 = Some (mk_form 0 "new" (UserFormValues.mk "" "" ""))) by reflexivity.
  assert (Hp0 : ash_pending (hook dialog0) = false) by reflexivity.
  split_and!; [exact dialog_typed_reachable|exact Hf|exact Hp| |].
  - apply (proj1 (submit_calls_handler dialog0 _ (reachable_init _) Hf0 Hp0)).
    by exists FUsername.
  - destruct (proj2 (submit_calls_handler dialog_typed typed_form dialog_typed_reachable Hf Hp)
      ltac:(by intros [])) as (st' & Hs & Hp' & _ & _ & _ & Hr).
    exists st'. split_and!; [exact Hs|exact Hp'|exact Hr].
Defined.



Lemma cancel_calls_onClose_witness :
  form dialog_typed = Some typed_form /\ ash_pending (hook dialog_typed) = false /\
  step dialog_typed ClickCancel = Some (dialog_typed, [CallOnClose]).
Proof.
  assert (Hf : form dialog_typed = Some typed_form) by reflexivity.
  assert (Hp : ash_pending (hook dialog_typed) = false) by reflexivity.
  split_and!; [exact Hf|exact Hp|exact (cancel_calls_onClose _ _ Hf Hp)].
Defined.

Lemma dismiss_while_pending_witness :
  Props.open (props dialog_pending) = true /\ ash_pending (hook dialog_pending) = true /\
  step dialog_pending Dismiss = Some (dialog_pending, [CallOnClose]) /\
  step dialog_pending ClickCancel = None.
Proof.
  assert (Ho : Props.open (props dialog_pending) = true) by reflexivity.
  assert (Hp : ash_pending (hook dialog_pending) = true) by reflexivity.
  split_and!; [exact Ho|exact Hp|apply (dismiss_while_pending _ Ho Hp)..].
Defined.

Lemma toggle_password_parity_witness :
  form dialog_typed = Some typed_form /\
  exists st', run dialog_typed (repeat TogglePassword 3) = Some (st', []) /\
    TextFieldView.type (View.password (view st')) = Some "text".
Proof.
  assert (Hf : form dialog_typed = Some typed_form) by reflexivity.
  split; [exact Hf|].
  destruct (toggle_password_parity dialog_typed typed_form 3 Hf) as (st' & Hr & _ & Ht & _).
  exists st'. split; [exact Hr|exact Ht].
Defined.

Lemma key_change_keeps_action_state_witness :
  form dialog_failed = Some typed_form /\ Props.open edit_props = true /\
  form_key (Props.user edit_props) <> fi_key typed_form /\
  exists st', step dialog_failed (SetProps edit_props) = Some (st', []) /\
    exists fi', form st' = Some fi' /\ UserFormValues.username (fi_values fi') = "alice" /\
      TextFieldView.helperText (View.username (view st')) = Some "Username taken".
Proof.
  assert (Hf : form dialog_failed = Some typed_form) by reflexivity.
  assert (Ho : Props.open edit_props = true) by reflexivity.
  assert (Hk : form_key (Props.user edit_props) <> fi_key typed_form) by discriminate.
  split_and!; [exact Hf|exact Ho|exact Hk|].
  destruct (key_change_keeps_action_state dialog_failed typed_form edit_props Hf Ho Hk)
    as (st' & Hs & _ & _ & _ & fi' & Hf' & _ & Hu & He).
  exists st'. split; [exact Hs|]. exists fi'. split_and!; [exact Hf'| |].
  - rewrite Hu. reflexivity.
  - exact (He FUsername).
Defined.

Lemma reachable_invariant_witness :
  reachable dialog_pending /\ ash_in_flight (hook dialog_pending) <= 1 /\
  (form dialog_pending <> None <-> Props.open (props dialog_pending) = true).
Proof.
  split; [exact dialog_pending_reachable|].
  destruct (reachable_invariant dialog_pending dialog_pending_reachable) as (H1 & H2 & _).
  split; [exact H1|exact H2].
Defined.

Lemma pending_refuses_input_witness :
  ash_pending (hook dialog_pending) = true /\
  step dialog_pending Submit = None /\ step dialog_pending (Input FUsername "x") = None.
Proof.
  assert (Hp : ash_pending (hook dialog_pending) = true) by reflexivity.
  destruct (pending_refuses_input dialog_pending Hp) as (Hs & _ & Hi).
  split_and!; [exact Hp|exact Hs|exact (Hi FUsername "x")].
Defined.

Lemma typing_updates_one_input_witness :
  form dialog_typed = Some typed_form /\ ash_pending (hook dialog_typed) = false /\
  exists fi', step dialog_typed (Input FPassword "p2") = Some (with_form dialog_typed (Some fi'), []) /\
    form_value (fi_values fi') FPassword = "p2".
Proof.
  assert (Hf : form dialog_typed = Some typed_form) by reflexivity.
  assert (Hp : ash_pending (hook dialog_typed) = false) by reflexivity.
  split_and!; [exact Hf|exact Hp|].
  destruct (typing_updates_one_input dialog_typed typed_form FPassword "p2" Hf Hp)
    as (fi' & Hs & _ & Hv & _). eauto.
Defined.

Lemma init_render_witness :
  ash_pending (hook dialog0) = false /\
  form dialog0 = Some (mk_form 0 "new" (UserFormValues.mk "" "" "")).
Proof.
  destruct (init_render (H:=@UseActionState.Hook (option UserActionState) FormData)
              create_props) as (Hp & _ & _ & _ & Hf).
  split; [exact Hp|exact Hf].
Defined.

Definition two_submit_events : list Event :=
  typed_events ++ [Submit; Resolve (Some failed_state); Submit].

Lemma run_submits_resolves_alternate_witness :
  reachable dialog0 /\
  exists st' effs, run dialog0 two_submit_events = Some (st', effs) /\
    handler_call_count effs = 2 /\ count_resolves two_submit_events = 1.
Proof.
  assert (Hrun : run dialog0 two_submit_events =
    Some (from_option fst dialog0 (run dialog0 two_submit_events),
          from_option snd [] (run dialog0 two_submit_events))) by reflexivity.
  split; [apply reachable_init|].
  destruct (run_submits_resolves_alternate _ _ _ _ (reachable_init _) Hrun) as (Hc & _).
  do 2 eexists. split_and!; [exact Hrun| |reflexivity]. rewrite Hc. reflexivity.
Defined.
